(** * a-color: the colour conversion engine (src/color-conversion.js)

    A shallow embedding of [color-conversion.js] and of the part of the
    JavaScript runtime it runs on, followed by the properties of the
    conversion functions.

    - Strings are [string]s of 8-bit characters (the code only inspects
      ASCII characters).
    - A JavaScript Number is an IEEE 754 binary64 value: a [spec_float]
      with [prec = 53] and [emax = 1024], computed with the operations of
      the standard library's [SpecFloat].
    - Functions of the runtime that ECMAScript leaves
      implementation-approximated ([Math.cos], [Math.pow], ...) are fields
      of the class [Runtime]; every statement holds for every runtime. *)

From Stdlib Require Import ZArith List String Ascii Bool Lia.
From Stdlib Require Import SpecFloat.
Import ListNotations.

Local Open Scope string_scope.
Local Open Scope Z_scope.

(** ** Strings *)

Module JsString.

(** [s.startsWith(p)] *)
Definition startsWith (s p : string) : bool := String.prefix p s.

(** White space and line terminators removed by [trim]. *)
Definition isWhiteSpace (c : ascii) : bool :=
  let n := nat_of_ascii c in
  ((9 <=? n) && (n <=? 13))%nat || (n =? 32)%nat.

Fixpoint trimStart (s : string) : string :=
  match s with
  | EmptyString => EmptyString
  | String c s' => if isWhiteSpace c then trimStart s' else s
  end.

Fixpoint trimEnd (s : string) : string :=
  match s with
  | EmptyString => EmptyString
  | String c s' =>
      match trimEnd s' with
      | EmptyString => if isWhiteSpace c then EmptyString else String c EmptyString
      | t => String c t
      end
  end.

(** [s.trim()] *)
Definition trim (s : string) : string := trimEnd (trimStart s).

Definition lowerChar (c : ascii) : ascii :=
  let n := nat_of_ascii c in
  if ((65 <=? n) && (n <=? 90))%nat then ascii_of_nat (n + 32) else c.

(** [s.toLowerCase()] *)
Fixpoint toLowerCase (s : string) : string :=
  match s with
  | EmptyString => EmptyString
  | String c s' => String (lowerChar c) (toLowerCase s')
  end.

(** [s.slice(1)] *)
Definition slice1 (s : string) : string :=
  match s with
  | EmptyString => EmptyString
  | String _ s' => s'
  end.

(** [s[i]]: the one-character string at index [i], absent out of range. *)
Definition charAt (s : string) (i : nat) : option string :=
  match String.get i s with
  | Some c => Some (String c EmptyString)
  | None => None
  end.

Fixpoint repeat0 (n : nat) : string :=
  match n with
  | O => EmptyString
  | S n' => String "0" (repeat0 n')
  end.

(** [s.padStart(n, '0')] *)
Definition padStart0 (n : nat) (s : string) : string :=
  repeat0 (n - String.length s) ++ s.

Definition isDigit (c : ascii) : bool :=
  let n := nat_of_ascii c in ((48 <=? n) && (n <=? 57))%nat.

Definition digitValue (c : ascii) : Z := Z.of_nat (nat_of_ascii c) - 48.

(** The value of a digit of radix 16, either case. *)
Definition hexDigitValue (c : ascii) : option Z :=
  let n := nat_of_ascii c in
  if ((48 <=? n) && (n <=? 57))%nat then Some (Z.of_nat n - 48)
  else if ((97 <=? n) && (n <=? 102))%nat then Some (Z.of_nat n - 87)
  else if ((65 <=? n) && (n <=? 70))%nat then Some (Z.of_nat n - 55)
  else None.

(** The digit of value [d] (below 36), lowercase as [toString] prints it. *)
Definition digitChar (d : Z) : ascii :=
  if d <? 10 then ascii_of_nat (Z.to_nat (d + 48))
  else ascii_of_nat (Z.to_nat (d + 87)).

(** The digits of [n >= 0] in [radix], most significant first, before
    [acc]; [fuel] bounds the number of digits. *)
Fixpoint digitsAux (fuel : nat) (radix n : Z) (acc : string) : string :=
  match fuel with
  | O => acc
  | S fuel' =>
      let acc' := String (digitChar (n mod radix)) acc in
      if n / radix =? 0 then acc' else digitsAux fuel' radix (n / radix) acc'
  end.

Definition digits (radix n : Z) : string :=
  digitsAux (S (Z.to_nat (Z.log2 n))) radix n EmptyString.

(** An integer in [radix], with its sign. *)
Definition integerToString (radix z : Z) : string :=
  if z <? 0 then String "-" (digits radix (- z)) else digits radix z.

End JsString.

(** ** Numbers *)

Module JsNumber.

Definition prec : Z := 53.
Definition emax : Z := 1024.

(** A Number: a binary64 floating-point value. *)
Definition number : Type := spec_float.

Definition NaN : number := S754_nan.

Definition add : number -> number -> number := SFadd prec emax.
Definition sub : number -> number -> number := SFsub prec emax.
Definition mul : number -> number -> number := SFmul prec emax.
Definition div : number -> number -> number := SFdiv prec emax.
Definition neg : number -> number := SFopp.

(** [x < y], [x <= y], [x > y], [x >= y] and [x === y]; false on NaN. *)
Definition ltb : number -> number -> bool := SFltb.
Definition leb : number -> number -> bool := SFleb.
Definition gtb (x y : number) : bool := SFltb y x.
Definition geb (x y : number) : bool := SFleb y x.
Definition strictEq : number -> number -> bool := SFeqb.

(** The Number for the integer [z] (the nearest one, ties to even). *)
Definition ofZ (z : Z) : number := binary_normalize prec emax z 0 false.

(** The Number nearest to [n / d], for [0 <= n] and [0 < d]: the quotient
    is computed with more than [prec + 2] bits and a sticky last bit. *)
Definition ofRatio (n d : Z) : number :=
  if n =? 0 then S754_zero false
  else
    let t := Z.log2 d + 56 in
    let (q, r) := Z.div_eucl (Z.shiftl n t) d in
    binary_normalize prec emax (2 * q + (if r =? 0 then 0 else 1)) (- (t + 1)) false.

(** The decimal literal with digits [n], the last [k] of them after the
    point: [lit 4045 5] is [0.04045]. *)
Definition lit (n k : Z) : number := ofRatio n (10 ^ k).

(** [Math.PI] = 0x1.921fb54442d18p+1 *)
Definition Math_PI : number := S754_finite false 7074237752028440 (-51).

(** The integer a Number is, when it is one. *)
Definition toInteger (x : number) : option Z :=
  match x with
  | S754_zero _ => Some 0
  | S754_finite s m e =>
      if 0 <=? e then Some (cond_Zopp s (Zpos m * 2 ^ e))
      else if Zpos m mod 2 ^ (- e) =? 0 then Some (cond_Zopp s (Zpos m / 2 ^ (- e)))
      else None
  | _ => None
  end.

(** [Math.round(x)]: the nearest integer, a tie going up; the sign of a
    zero result is that of [x]. *)
Definition Math_round (x : number) : number :=
  match x with
  | S754_finite s m e =>
      if 0 <=? e then x
      else
        let den := 2 ^ (- e) in
        let n := (2 * cond_Zopp s (Zpos m) + den) / (2 * den) in
        if n =? 0 then S754_zero s else ofZ n
  | _ => x
  end.

Definition isZero (s : bool) (x : number) : bool :=
  match x with
  | S754_zero s' => Bool.eqb s s'
  | _ => false
  end.

Fixpoint maxLoop (highest : number) (l : list number) : number :=
  match l with
  | [] => highest
  | S754_nan :: _ => NaN
  | x :: l' =>
      maxLoop (if isZero false x && isZero true highest then x
               else if gtb x highest then x else highest) l'
  end.

(** [Math.max(...l)] *)
Definition Math_max (l : list number) : number := maxLoop (S754_infinity true) l.

Fixpoint minLoop (lowest : number) (l : list number) : number :=
  match l with
  | [] => lowest
  | S754_nan :: _ => NaN
  | x :: l' =>
      minLoop (if isZero true x && isZero false lowest then x
               else if ltb x lowest then x else lowest) l'
  end.

(** [Math.min(...l)] *)
Definition Math_min (l : list number) : number := minLoop (S754_infinity false) l.

(** [n % d]: the remainder of the truncating division, computed exactly;
    it has the sign of [n]. *)
Definition rem (n d : number) : number :=
  match n, d with
  | S754_nan, _ | _, S754_nan => NaN
  | S754_infinity _, _ => NaN
  | _, S754_zero _ => NaN
  | _, S754_infinity _ => n
  | S754_zero _, _ => n
  | S754_finite sn mn en, S754_finite _ md ed =>
      let e := Z.min en ed in
      let r := (Zpos mn * 2 ^ (en - e)) mod (Zpos md * 2 ^ (ed - e)) in
      if r =? 0 then S754_zero sn
      else binary_normalize prec emax (cond_Zopp sn r) e false
  end.

(** The integer part of a Number, 0 when it is not finite. *)
Definition truncate (x : number) : Z :=
  match x with
  | S754_finite s m e =>
      cond_Zopp s (if 0 <=? e then Zpos m * 2 ^ e else Zpos m / 2 ^ (- e))
  | _ => 0
  end.

Definition wrap32 (z : Z) : Z :=
  let r := z mod 2 ^ 32 in
  if 2 ^ 31 <=? r then r - 2 ^ 32 else r.

Definition ToInt32 (x : number) : Z := wrap32 (truncate x).

(** [x << k], [x >> k] and [x & y] for a shift count [0 <= k < 32]. *)
Definition shl (x : number) (k : Z) : number := ofZ (wrap32 (Z.shiftl (ToInt32 x) k)).
Definition shr (x : number) (k : Z) : number := ofZ (Z.shiftr (ToInt32 x) k).
Definition band (x y : number) : number := ofZ (Z.land (ToInt32 x) (ToInt32 y)).

(** The value of the longest prefix of [s] made of digits of radix 16,
    after [acc]; [None] when there is no digit. *)
Fixpoint hexPrefix (acc : option Z) (s : string) : option Z :=
  match s with
  | EmptyString => acc
  | String c s' =>
      match JsString.hexDigitValue c with
      | Some d => hexPrefix (Some (16 * match acc with Some a => a | None => 0 end + d)) s'
      | None => acc
      end
  end.

(** [parseInt(s, 16)] *)
Definition parseInt16 (s : string) : number :=
  let s1 := JsString.trimStart s in
  let '(sign, s2) :=
    match s1 with
    | String "-" s' => (true, s')
    | String "+" s' => (false, s')
    | _ => (false, s1)
    end in
  let s3 :=
    match s2 with
    | String "0" (String "x" s') => s'
    | String "0" (String "X" s') => s'
    | _ => s2
    end in
  match hexPrefix None s3 with
  | None => NaN
  | Some v => if v =? 0 then S754_zero sign else ofZ (cond_Zopp sign v)
  end.

Fixpoint allDigits (s : string) : bool :=
  match s with
  | EmptyString => true
  | String c s' => JsString.isDigit c && allDigits s'
  end.

Definition digitString (s : string) : bool :=
  negb (String.eqb s EmptyString) && allDigits s.

Fixpoint decimalValue (acc : Z) (s : string) : Z :=
  match s with
  | EmptyString => acc
  | String c s' => decimalValue (10 * acc + JsString.digitValue c) s'
  end.

Fixpoint splitDot (s : string) : string * option string :=
  match s with
  | EmptyString => (EmptyString, None)
  | String c s' =>
      if Ascii.eqb c "." then (EmptyString, Some s')
      else let (i, f) := splitDot s' in (String c i, f)
  end.

(** [Number(s)] for an unsigned decimal numeral [s] without exponent
    (digits, or digits "." digits), which is what the code passes it;
    NaN for a string that is no numeral. *)
Definition StringToNumber (s : string) : number :=
  match splitDot s with
  | (i, None) => if digitString i then ofZ (decimalValue 0 i) else NaN
  | (i, Some f) =>
      if digitString i && digitString f
      then ofRatio (decimalValue 0 (i ++ f)) (10 ^ Z.of_nat (String.length f))
      else NaN
  end.

End JsNumber.

Import JsString JsNumber.

(** ** The implementation-approximated part of the runtime *)

Class Runtime : Type := {
  Math_cos : number -> number;
  Math_sin : number -> number;
  Math_atan2 : number -> number -> number;
  Math_pow : number -> number -> number;
  Math_cbrt : number -> number;
  Math_sqrt : number -> number;
  (** [Number::toString(x, radix)] where the digits are not those of an
      integer: [x] finite and not an integer, or at least 10^21 in radix 10. *)
  Number_toString : Z -> number -> string
}.

(** ** Values, completions and objects *)

(** The values the conversion functions receive and return: [undefined],
    [null], a string, or an object (one of the members every object inherits
    from [Object.prototype], named by its property key). *)
Inductive jsvalue : Type :=
  | undefined
  | null
  | str (s : string)
  | obj (key : string).

(** [!v] is false exactly on the truthy values. *)
Definition truthy (v : jsvalue) : bool :=
  match v with
  | undefined | null => false
  | str s => negb (String.eqb s "")
  | obj _ => true
  end.

(** How a call ends: it returns, or it throws. *)
Inductive completion (A : Type) : Type :=
  | Return (a : A)
  | Throw (e : string).
Arguments Return {A} a.
Arguments Throw {A} e.

Definition TypeError : string := "TypeError".

Definition bind {A B : Type} (c : completion A) (k : A -> completion B) : completion B :=
  match c with
  | Return a => k a
  | Throw e => Throw e
  end.

Notation "'let*' x ':=' c 'in' k" := (bind c (fun x => k))
  (at level 10, x pattern, c at level 100, k at level 200).

(** An object literal with string values: its own properties, in insertion
    order. *)
Definition object : Type := list (string * string).

(** The keys every object inherits from [Object.prototype]. *)
Definition ObjectPrototype : list string :=
  [ "constructor"; "hasOwnProperty"; "isPrototypeOf"; "propertyIsEnumerable";
    "toLocaleString"; "toString"; "valueOf"; "__proto__";
    "__defineGetter__"; "__defineSetter__"; "__lookupGetter__"; "__lookupSetter__" ].

Fixpoint getOwn (o : object) (k : string) : option string :=
  match o with
  | [] => None
  | (k', v) :: o' => if String.eqb k k' then Some v else getOwn o' k
  end.

(** [o[k]]: the own property, else the inherited one, else [undefined]. *)
Definition get (o : object) (k : string) : jsvalue :=
  match getOwn o k with
  | Some v => str v
  | None => if existsb (String.eqb k) ObjectPrototype then obj k else undefined
  end.

(** [o[k] = v]: an existing key keeps its place, a new one goes last. *)
Fixpoint set (o : object) (k v : string) : object :=
  match o with
  | [] => [(k, v)]
  | (k', v') :: o' => if String.eqb k k' then (k, v) :: o' else (k', v') :: set o' k v
  end.

(** ** The numerals of a string: [s.match(/\d+(\.\d+)?/g)] *)

(** The longest run of digits at the head of [s], and what follows it. *)
Fixpoint spanDigits (s : string) : string * string :=
  match s with
  | String c s' =>
      if isDigit c then let (ds, rest) := spanDigits s' in (String c ds, rest)
      else (EmptyString, s)
  | EmptyString => (EmptyString, EmptyString)
  end.

(** One match attempt at the head of [s], which starts with the digit [c]:
    the numeral matched and the rest of the string. The group [(\.\d+)?]
    matches when a point and a digit follow the first run of digits. *)
Definition numeralAt (c : ascii) (s' : string) : string * string :=
  let (ds, rest) := spanDigits s' in
  match rest with
  | String "." (String d rest') =>
      if isDigit d
      then let (fs, rest'') := spanDigits rest' in
           (String c ds ++ String "." (String d fs), rest'')
      else (String c ds, rest)
  | _ => (String c ds, rest)
  end.

(** All the matches, from left to right; [fuel] bounds the scan by the
    length of the string. *)
Fixpoint numerals (fuel : nat) (s : string) : list string :=
  match fuel, s with
  | S fuel', String c s' =>
      if isDigit c
      then let (tok, rest) := numeralAt c s' in tok :: numerals fuel' rest
      else numerals fuel' s'
  | _, _ => []
  end.

(** [s.match(/\d+(\.\d+)?/g)]: the array of the matches, [None] for the
    [null] of a string without digits. *)
Definition matchNumerals (s : string) : option (list string) :=
  match numerals (String.length s) s with
  | [] => None
  | l => Some l
  end.

(** The element [i] of an array of Numbers as an operand of arithmetic: a
    missing element is [undefined], which converts to NaN. *)
Definition element (l : list number) (i : nat) : number := nth i l NaN.

(** ** Printing Numbers *)

Section Printing.
Context {rt : Runtime}.

(** [x.toString(radix)], and for radix 10 also [String(x)] and [`${x}`]. *)
Definition toString (radix : Z) (x : number) : string :=
  match x with
  | S754_nan => "NaN"
  | S754_infinity false => "Infinity"
  | S754_infinity true => "-Infinity"
  | S754_zero _ => "0"
  | S754_finite _ _ _ =>
      match toInteger x with
      | Some z =>
          if (radix =? 10) && (10 ^ 21 <=? Z.abs z) then Number_toString radix x
          else integerToString radix z
      | None => Number_toString radix x
      end
  end.

(** The integer nearest to [m * 2^e * 10^f], a tie going up. *)
Definition scaledRound (m : positive) (e : Z) (f : Z) : Z :=
  if 0 <=? e then Zpos m * 2 ^ e * 10 ^ f
  else (2 * Zpos m * 10 ^ f + 2 ^ (- e)) / (2 * 2 ^ (- e)).

(** [x.toFixed(f)] for [0 <= f <= 100] *)
Definition toFixed (f : nat) (x : number) : string :=
  match x with
  | S754_finite s m e =>
      if leb (ofZ (10 ^ 21)) (SFabs x) then toString 10 x
      else
        let n := digits 10 (scaledRound m e (Z.of_nat f)) in
        let padded := padStart0 (S f) n in
        let k := (String.length padded - f)%nat in
        let body :=
          match f with
          | O => padded
          | _ => substring 0 k padded ++ "." ++ substring k f padded
          end in
        if s then String "-" body else body
  | S754_zero _ =>
      match f with
      | O => "0"
      | _ => "0." ++ repeat0 f
      end
  | _ => toString 10 x
  end.

End Printing.

(** ** color-conversion.js *)

Module ColorConversion.

Definition COLOR_NAMES : object :=
[
  ("aliceblue", "#f0f8ff"); ("antiquewhite", "#faebd7"); ("aqua", "#00ffff");
  ("aquamarine", "#7fffd4"); ("azure", "#f0ffff"); ("beige", "#f5f5dc");
  ("bisque", "#ffe4c4"); ("black", "#000000"); ("blanchedalmond", "#ffebcd");
  ("blue", "#0000ff"); ("blueviolet", "#8a2be2"); ("brown", "#a52a2a");
  ("burlywood", "#deb887"); ("cadetblue", "#5f9ea0"); ("chartreuse", "#7fff00");
  ("chocolate", "#d2691e"); ("coral", "#ff7f50"); ("cornflowerblue", "#6495ed");
  ("cornsilk", "#fff8dc"); ("crimson", "#dc143c"); ("cyan", "#00ffff");
  ("darkblue", "#00008b"); ("darkcyan", "#008b8b"); ("darkgoldenrod", "#b8860b");
  ("darkgray", "#a9a9a9"); ("darkgreen", "#006400"); ("darkgrey", "#a9a9a9");
  ("darkkhaki", "#bdb76b"); ("darkmagenta", "#8b008b"); ("darkolivegreen", "#556b2f");
  ("darkorange", "#ff8c00"); ("darkorchid", "#9932cc"); ("darkred", "#8b0000");
  ("darksalmon", "#e9967a"); ("darkseagreen", "#8fbc8f");
  ("darkslateblue", "#483d8b"); ("darkslategray", "#2f4f4f");
  ("darkslategrey", "#2f4f4f"); ("darkturquoise", "#00ced1");
  ("darkviolet", "#9400d3"); ("deeppink", "#ff1493"); ("deepskyblue", "#00bfff");
  ("dimgray", "#696969"); ("dimgrey", "#696969"); ("dodgerblue", "#1e90ff");
  ("firebrick", "#b22222"); ("floralwhite", "#fffaf0"); ("forestgreen", "#228b22");
  ("fuchsia", "#ff00ff"); ("gainsboro", "#dcdcdc"); ("ghostwhite", "#f8f8ff");
  ("gold", "#ffd700"); ("goldenrod", "#daa520"); ("gray", "#808080");
  ("green", "#008000"); ("greenyellow", "#adff2f"); ("grey", "#808080");
  ("honeydew", "#f0fff0"); ("hotpink", "#ff69b4"); ("indianred", "#cd5c5c");
  ("indigo", "#4b0082"); ("ivory", "#fffff0"); ("khaki", "#f0e68c");
  ("lavender", "#e6e6fa"); ("lavenderblush", "#fff0f5"); ("lawngreen", "#7cfc00");
  ("lemonchiffon", "#fffacd"); ("lightblue", "#add8e6"); ("lightcoral", "#f08080");
  ("lightcyan", "#e0ffff"); ("lightgoldenrodyellow", "#fafad2");
  ("lightgray", "#d3d3d3"); ("lightgreen", "#90ee90"); ("lightgrey", "#d3d3d3");
  ("lightpink", "#ffb6c1"); ("lightsalmon", "#ffa07a"); ("lightseagreen", "#20b2aa");
  ("lightskyblue", "#87cefa"); ("lightslategray", "#778899");
  ("lightslategrey", "#778899"); ("lightsteelblue", "#b0c4de");
  ("lightyellow", "#ffffe0"); ("lime", "#00ff00"); ("limegreen", "#32cd32");
  ("linen", "#faf0e6"); ("magenta", "#ff00ff"); ("maroon", "#800000");
  ("mediumaquamarine", "#66cdaa"); ("mediumblue", "#0000cd");
  ("mediumorchid", "#ba55d3"); ("mediumpurple", "#9370db");
  ("mediumseagreen", "#3cb371"); ("mediumslateblue", "#7b68ee");
  ("mediumspringgreen", "#00fa9a"); ("mediumturquoise", "#48d1cc");
  ("mediumvioletred", "#c71585"); ("midnightblue", "#191970");
  ("mintcream", "#f5fffa"); ("mistyrose", "#ffe4e1"); ("moccasin", "#ffe4b5");
  ("navajowhite", "#ffdead"); ("navy", "#000080"); ("oldlace", "#fdf5e6");
  ("olive", "#808000"); ("olivedrab", "#6b8e23"); ("orange", "#ffa500");
  ("orangered", "#ff4500"); ("orchid", "#da70d6"); ("palegoldenrod", "#eee8aa");
  ("palegreen", "#98fb98"); ("paleturquoise", "#afeeee");
  ("palevioletred", "#db7093"); ("papayawhip", "#ffefd5"); ("peachpuff", "#ffdab9");
  ("peru", "#cd853f"); ("pink", "#ffc0cb"); ("plum", "#dda0dd");
  ("powderblue", "#b0e0e6"); ("purple", "#800080"); ("red", "#ff0000");
  ("rosybrown", "#bc8f8f"); ("royalblue", "#4169e1"); ("saddlebrown", "#8b4513");
  ("salmon", "#fa8072"); ("sandybrown", "#f4a460"); ("seagreen", "#2e8b57");
  ("seashell", "#fff5ee"); ("sienna", "#a0522d"); ("silver", "#c0c0c0");
  ("skyblue", "#87ceeb"); ("slateblue", "#6a5acd"); ("slategray", "#708090");
  ("slategrey", "#708090"); ("snow", "#fffafa"); ("springgreen", "#00ff7f");
  ("steelblue", "#4682b4"); ("tan", "#d2b48c"); ("teal", "#008080");
  ("thistle", "#d8bfd8"); ("tomato", "#ff6347"); ("turquoise", "#40e0d0");
  ("violet", "#ee82ee"); ("wheat", "#f5deb3"); ("white", "#ffffff");
  ("whitesmoke", "#f5f5f5"); ("yellow", "#ffff00"); ("yellowgreen", "#9acd32")
].

(** The module variable [HEX_TO_NAMES]: [None] is its initial [null]. *)
Definition store : Type := option object.

Definition getHexToNameMap (HEX_TO_NAMES : store) : object * store :=
  match HEX_TO_NAMES with
  | Some m => (m, HEX_TO_NAMES)
  | None =>
      (* If multiple names point to same hex (gray/grey), the last one overwrites. *)
      let m := fold_left (fun acc '(name, hex) => set acc hex name) COLOR_NAMES [] in
      (m, Some m)
  end.

(** The receiver of a string method: a call on anything else throws. *)
Definition asString (v : jsvalue) : completion string :=
  match v with
  | str s => Return s
  | _ => Throw TypeError
  end.

(** [value.match(/\d+(\.\d+)?/g).map(Number)]: [match] gives [null] when
    there is no numeral, and [null.map] throws. *)
Definition numbers (value : string) : completion (list number) :=
  match matchNumerals value with
  | Some l => Return (map StringToNumber l)
  | None => Throw TypeError
  end.

Record rgb : Type := mkRgb { r : number; g : number; b : number }.

(** Parses a hex string into [0-1] sRGB components. *)
Definition parseHexToRgb (hex : string) : rgb :=
  let hex := if startsWith hex "#" then slice1 hex else hex in
  let twice i := match charAt hex i with Some c => c ++ c | None => "" end in
  let '(r, g, b) :=
    if (String.length hex =? 3)%nat
    then (parseInt16 (twice 0%nat), parseInt16 (twice 1%nat), parseInt16 (twice 2%nat))
    else
      let val := parseInt16 hex in
      (band (shr val 16) (ofZ 255), band (shr val 8) (ofZ 255), band val (ofZ 255)) in
  mkRgb (div r (ofZ 255)) (div g (ofZ 255)) (div b (ofZ 255)).

Section WithRuntime.
Context {rt : Runtime}.

Definition toDoubleHex (v : number) : string :=
  padStart0 2 (toString 16 (Math_round (mul v (ofZ 255)))).

Definition clamp (v : number) : number :=
  Math_min [ofZ 1; Math_max [ofZ 0; v]].

(** Converts sRGB [0-1] to linear RGB [0-1]. *)
Definition sRgbToLinear (c : rgb) : rgb :=
  let linearize c :=
    if leb c (lit 4045 5) then div c (lit 1292 2)
    else Math_pow (div (add c (lit 55 3)) (lit 1055 3)) (lit 24 1) in
  mkRgb (linearize (r c)) (linearize (g c)) (linearize (b c)).

(** *** CSS -> Hex *)

Definition rgbToHex (value : string) : completion string :=
  let* n := numbers value in
  let r := element n 0 in
  let g := element n 1 in
  let b := element n 2 in
  Return ("#" ++ slice1 (toString 16
           (add (add (add (shl (ofZ 1) 24) (shl r 16)) (shl g 8)) b))).

Definition hslToHex (value : string) : completion string :=
  let* n := numbers value in
  let h := element n 0 in
  let s := element n 1 in
  let l := element n 2 in
  let sPct := div s (ofZ 100) in
  let lPct := div l (ofZ 100) in
  let k n := rem (add n (div h (ofZ 30))) (ofZ 12) in
  let a := mul sPct (Math_min [lPct; sub (ofZ 1) lPct]) in
  let f n :=
    sub lPct
        (mul a (Math_max [ofZ (-1);
                          Math_min [sub (k n) (ofZ 3);
                                    Math_min [sub (ofZ 9) (k n); ofZ 1]]])) in
  Return ("#" ++ toDoubleHex (f (ofZ 0)) ++ toDoubleHex (f (ofZ 8))
              ++ toDoubleHex (f (ofZ 4))).

Definition hwbToHex (value : string) : completion string :=
  let* n := numbers value in
  let h := element n 0 in
  let w := element n 1 in
  let b := element n 2 in
  let wPct := div w (ofZ 100) in
  let bPct := div b (ofZ 100) in
  if geb (add wPct bPct) (ofZ 1)
  then
    let gray := div wPct (add wPct bPct) in
    Return ("#" ++ toDoubleHex gray ++ toDoubleHex gray ++ toDoubleHex gray)
  else
    let* rgb := hslToHex ("hsl(" ++ toString 10 h ++ ", 100%, 50%)") in
    let rgbVals := parseHexToRgb rgb in
    let mix c := add (mul c (sub (sub (ofZ 1) wPct) bPct)) wPct in
    Return ("#" ++ toDoubleHex (mix (r rgbVals)) ++ toDoubleHex (mix (g rgbVals))
                ++ toDoubleHex (mix (ColorConversion.b rgbVals))).

(** The gamma encoding shared by [lchToHex] and [oklchToHex]. *)
Definition gamma (v : number) : number :=
  if leb v (lit 31308 7) then mul (lit 1292 2) v
  else sub (mul (lit 1055 3) (Math_pow v (div (ofZ 1) (lit 24 1)))) (lit 55 3).

Definition lchToHex (value : string) : completion string :=
  let* n := numbers value in
  let l := element n 0 in
  let c := element n 1 in
  let h := element n 2 in
  let rad := mul h (div Math_PI (ofZ 180)) in
  let a := mul c (Math_cos rad) in
  let b := mul c (Math_sin rad) in
  let y := div (add l (ofZ 16)) (ofZ 116) in
  let x := add (div a (ofZ 500)) y in
  let z := sub y (div b (ofZ 200)) in
  let cube v :=
    if gtb (mul (mul v v) v) (lit 8856 6) then mul (mul v v) v
    else div (sub v (div (ofZ 16) (ofZ 116))) (lit 7787 3) in
  let x := mul (lit 95047 3) (cube x) in
  let y := mul (lit 100000 3) (cube y) in
  let z := mul (lit 108883 3) (cube z) in
  (* XYZ to RGB *)
  let r := add (add (mul x (lit 32406 6)) (mul y (neg (lit 15372 6))))
               (mul z (neg (lit 4986 6))) in
  let g := add (add (mul x (neg (lit 9689 6))) (mul y (lit 18758 6)))
               (mul z (lit 415 6)) in
  let bl := add (add (mul x (lit 557 6)) (mul y (neg (lit 2040 6))))
                (mul z (lit 10570 6)) in
  Return ("#" ++ toDoubleHex (clamp (gamma r)) ++ toDoubleHex (clamp (gamma g))
              ++ toDoubleHex (clamp (gamma bl))).

Definition oklchToHex (value : string) : completion string :=
  let* n := numbers value in
  let l := element n 0 in
  let c := element n 1 in
  let h := element n 2 in
  let rad := mul h (div Math_PI (ofZ 180)) in
  let a := mul c (Math_cos rad) in
  let b := mul c (Math_sin rad) in
  let l_ := add (add l (mul (lit 3963377774 10) a)) (mul (lit 2158037573 10) b) in
  let m_ := sub (sub l (mul (lit 1055613458 10) a)) (mul (lit 638541728 10) b) in
  let s_ := sub (sub l (mul (lit 894841775 10) a)) (mul (lit 12914855480 10) b) in
  let l3 := mul (mul l_ l_) l_ in
  let m3 := mul (mul m_ m_) m_ in
  let s3 := mul (mul s_ s_) s_ in
  let r := add (sub (mul (lit 40767416621 10) l3) (mul (lit 33077115913 10) m3))
               (mul (lit 2309699292 10) s3) in
  let g := sub (add (mul (neg (lit 12684380046 10)) l3) (mul (lit 26097574011 10) m3))
               (mul (lit 3413193965 10) s3) in
  let bl := add (sub (mul (neg (lit 41960863 10)) l3) (mul (lit 7034186147 10) m3))
                (mul (lit 17076147010 10) s3) in
  Return ("#" ++ toDoubleHex (clamp (gamma r)) ++ toDoubleHex (clamp (gamma g))
              ++ toDoubleHex (clamp (gamma bl))).

Definition namedColorToHex (value : string) : jsvalue :=
  let found := get COLOR_NAMES (toLowerCase value) in
  if truthy found then found else str value.

(** Converts CSS color string to Hex. On a missing value the code
    returns what [console.error] returns, [undefined]. *)
Definition toHex (value : jsvalue) : completion jsvalue :=
  if negb (truthy value) then Return undefined
  else
    let* value := asString value in
    let value := trim value in
    let string (c : completion string) := let* s := c in Return (str s) in
    if startsWith value "#" then Return (str value)
    else if startsWith value "rgb" then string (rgbToHex value)
    else if startsWith value "hsl" then string (hslToHex value)
    else if startsWith value "hwb" then string (hwbToHex value)
    else if startsWith value "lch" then string (lchToHex value)
    else if startsWith value "oklch" then string (oklchToHex value)
    else Return (namedColorToHex value).

(** *** Hex -> CSS *)

Definition hexToName (hex : jsvalue) (HEX_TO_NAMES : store) : completion jsvalue * store :=
  if negb (truthy hex) then (Return (str "black"), HEX_TO_NAMES)
  else
    match hex with
    | str hex =>
        let hex := toLowerCase hex in
        let ch i := match charAt hex i with Some c => c | None => "undefined" end in
        let hex :=
          if (String.length hex =? 4)%nat
          (* Expand shorthand #f00 -> #ff0000 for lookup *)
          then "#" ++ ch 1%nat ++ ch 1%nat ++ ch 2%nat ++ ch 2%nat ++ ch 3%nat ++ ch 3%nat
          else hex in
        let '(map, HEX_TO_NAMES) := getHexToNameMap HEX_TO_NAMES in
        let found := get map hex in
        (Return (if truthy found then found else str hex), HEX_TO_NAMES)
    | _ => (Throw TypeError, HEX_TO_NAMES)
    end.

Definition hexToRgb (hex : jsvalue) : completion string :=
  let* hex := asString hex in
  let c := parseHexToRgb hex in
  let channel x := toString 10 (Math_round (mul x (ofZ 255))) in
  Return ("rgb(" ++ channel (r c) ++ ", " ++ channel (g c) ++ ", " ++ channel (b c) ++ ")").

(** The hue of [hexToHsl] and [hexToHwb], in turns, for [max <> min]. A
    [switch] that matches no case leaves [h] undefined, and [h /= 6]
    makes it NaN. *)
Definition hue (r g b max d : number) : number :=
  let h :=
    if strictEq max r
    then add (div (sub g b) d) (if ltb g b then ofZ 6 else ofZ 0)
    else if strictEq max g then add (div (sub b r) d) (ofZ 2)
    else if strictEq max b then add (div (sub r g) d) (ofZ 4)
    else NaN in
  div h (ofZ 6).

Definition hexToHsl (hex : jsvalue) : completion string :=
  let* hex := asString hex in
  let c := parseHexToRgb hex in
  let '(r, g, b) := (r c, g c, b c) in
  let max := Math_max [r; g; b] in
  let min := Math_min [r; g; b] in
  let l := div (add max min) (ofZ 2) in
  let '(h, s) :=
    if strictEq max min then (ofZ 0, ofZ 0)
    else
      let d := sub max min in
      let s :=
        if gtb l (lit 5 1) then div d (sub (sub (ofZ 2) max) min)
        else div d (add max min) in
      (hue r g b max d, s) in
  Return ("hsl(" ++ toString 10 (Math_round (mul h (ofZ 360))) ++ ", "
                 ++ toString 10 (Math_round (mul s (ofZ 100))) ++ "%, "
                 ++ toString 10 (Math_round (mul l (ofZ 100))) ++ "%)").

Definition hexToHwb (hex : jsvalue) : completion string :=
  let* hex := asString hex in
  let c := parseHexToRgb hex in
  let '(r, g, b) := (r c, g c, b c) in
  let max := Math_max [r; g; b] in
  let min := Math_min [r; g; b] in
  let w := min in
  let bl := sub (ofZ 1) max in
  let h :=
    if strictEq max min then ofZ 0
    else hue r g b max (sub max min) in
  Return ("hwb(" ++ toString 10 (Math_round (mul h (ofZ 360))) ++ " "
                 ++ toString 10 (Math_round (mul w (ofZ 100))) ++ "% "
                 ++ toString 10 (Math_round (mul bl (ofZ 100))) ++ "%)").

(** [Math.atan2(b, a)] in degrees, moved into [0, 360). *)
Definition hueDegrees (bVal a : number) : number :=
  let H := mul (Math_atan2 bVal a) (div (ofZ 180) Math_PI) in
  if ltb H (ofZ 0) then add H (ofZ 360) else H.

Definition hexToLch (hex : jsvalue) : completion string :=
  let* hex := asString hex in
  (* Linearize RGB *)
  let c := sRgbToLinear (parseHexToRgb hex) in
  let '(r, g, b) := (r c, g c, b c) in
  (* RGB -> XYZ (D65) *)
  let x := mul (add (add (mul r (lit 4124 4)) (mul g (lit 3576 4))) (mul b (lit 1805 4)))
               (ofZ 100) in
  let y := mul (add (add (mul r (lit 2126 4)) (mul g (lit 7152 4))) (mul b (lit 722 4)))
               (ofZ 100) in
  let z := mul (add (add (mul r (lit 193 4)) (mul g (lit 1192 4))) (mul b (lit 9505 4)))
               (ofZ 100) in
  (* XYZ -> LAB *)
  let x := div x (lit 95047 3) in
  let y := div y (lit 100000 3) in
  let z := div z (lit 108883 3) in
  let f t :=
    if gtb t (lit 8856 6) then Math_cbrt t
    else add (mul (lit 7787 3) t) (div (ofZ 16) (ofZ 116)) in
  let x := f x in
  let y := f y in
  let z := f z in
  let L := sub (mul (ofZ 116) y) (ofZ 16) in
  let a := mul (ofZ 500) (sub x y) in
  let bVal := mul (ofZ 200) (sub y z) in
  (* LAB -> LCH *)
  let C := Math_sqrt (add (mul a a) (mul bVal bVal)) in
  let H := hueDegrees bVal a in
  Return ("lch(" ++ toFixed 2 L ++ "% " ++ toFixed 3 C ++ " " ++ toFixed 2 H ++ ")").

Definition hexToOklch (hex : jsvalue) : completion string :=
  let* hex := asString hex in
  (* Linearize RGB *)
  let c := sRgbToLinear (parseHexToRgb hex) in
  let '(r, g, b) := (r c, g c, b c) in
  (* Linear sRGB -> LMS *)
  let l_ := add (add (mul (lit 4122214708 10) r) (mul (lit 5363325363 10) g))
                (mul (lit 514459929 10) b) in
  let m_ := add (add (mul (lit 2119034982 10) r) (mul (lit 6806995451 10) g))
                (mul (lit 1073969566 10) b) in
  let s_ := add (add (mul (lit 883024619 10) r) (mul (lit 2817188376 10) g))
                (mul (lit 6299787005 10) b) in
  let l_c := Math_cbrt l_ in
  let m_c := Math_cbrt m_ in
  let s_c := Math_cbrt s_ in
  (* LMS -> OKLab *)
  let L := sub (add (mul (lit 2104542553 10) l_c) (mul (lit 7936177850 10) m_c))
               (mul (lit 40720468 10) s_c) in
  let a := add (sub (mul (lit 19779984951 10) l_c) (mul (lit 24285922050 10) m_c))
               (mul (lit 4505937099 10) s_c) in
  let bVal := sub (add (mul (lit 259040371 10) l_c) (mul (lit 7827717662 10) m_c))
                  (mul (lit 8086757660 10) s_c) in
  (* OKLab -> OKLCH *)
  let C := Math_sqrt (add (mul a a) (mul bVal bVal)) in
  let H := hueDegrees bVal a in
  Return ("oklch(" ++ toFixed 3 L ++ " " ++ toFixed 3 C ++ " " ++ toFixed 2 H ++ ")").

(** Converts Hex string to specific CSS color space. *)
Definition hexTo (hex format : jsvalue) (HEX_TO_NAMES : store)
  : completion jsvalue * store :=
  if negb (truthy hex) || negb (truthy format) then (Return hex, HEX_TO_NAMES)
  else
    let string (c : completion string) :=
      (let* s := c in Return (str s), HEX_TO_NAMES) in
    match asString format with
    | Throw e => (Throw e, HEX_TO_NAMES)
    | Return format =>
        let format := toLowerCase format in
        if String.eqb format "rgb" then string (hexToRgb hex)
        else if String.eqb format "hsl" then string (hexToHsl hex)
        else if String.eqb format "hwb" then string (hexToHwb hex)
        else if String.eqb format "lch" then string (hexToLch hex)
        else if String.eqb format "oklch" then string (hexToOklch hex)
        else if String.eqb format "name" then hexToName hex HEX_TO_NAMES
        else (Return hex, HEX_TO_NAMES)
    end.

End WithRuntime.
End ColorConversion.

(** ** Notions of the specification *)

Module Spec.
Import ColorConversion.

Definition isLowerHexDigit (c : ascii) : bool :=
  let n := nat_of_ascii c in
  isDigit c || ((97 <=? n) && (n <=? 102))%nat.

Definition isHexDigit (c : ascii) : bool :=
  match hexDigitValue c with
  | Some _ => true
  | None => false
  end.

Fixpoint all (p : ascii -> bool) (s : string) : bool :=
  match s with
  | EmptyString => true
  | String c s' => p c && all p s'
  end.

(** A valid 6-digit lowercase hex string: [#] and six digits in [0-9a-f]. *)
Definition lowerHex6 (s : string) : bool :=
  match s with
  | String "#" t => (String.length t =? 6)%nat && all isLowerHexDigit t
  | _ => false
  end.

(** A valid hex notation: [#] and three or six hex digits of any case. *)
Definition hexNotation (s : string) : bool :=
  match s with
  | String "#" t =>
      ((String.length t =? 3)%nat || (String.length t =? 6)%nat) && all isHexDigit t
  | _ => false
  end.

(** The canonical HexColor of a hex notation: lowercase, the 3-digit
    shorthand expanded by digit duplication. *)
Definition canonicalHex (s : string) : string :=
  match toLowerCase s with
  | String h (String x (String y (String z EmptyString))) =>
      String h (String x (String x (String y (String y (String z (String z EmptyString))))))
  | t => t
  end.

(** A numeral of the functional notations: digits, or digits, a point and
    digits. *)
Definition numeral (s : string) : bool :=
  match splitDot s with
  | (i, None) => digitString i
  | (i, Some f) => digitString i && digitString f
  end.



(** [toHex(hexTo(H, F))], from the store [HEX_TO_NAMES]. *)
Definition roundTrip {rt : Runtime} (H F : string) (HEX_TO_NAMES : store)
  : completion jsvalue :=
  let* s := fst (hexTo (str H) (str F) HEX_TO_NAMES) in toHex s.


End Spec.

(** ** Definitions used by the proofs *)

Module Binary64.

(** [q * 2^z] for [0 <= z], as the alignment of mantissas computes it. *)
Definition scale (q : positive) (z : Z) : positive :=
  match z with
  | Zpos j => Pos.iter xO q j
  | _ => q
  end.

(** The binary64 representation of the integer [c] below 2^53, with sign
    [s]: a mantissa of 53 bits. *)
Definition canonical (s : bool) (c : positive) : number :=
  S754_finite s (scale c (53 - Zpos (digits2_pos c))) (Zpos (digits2_pos c) - 53).

(** Equality of representations, decided. *)
Definition numberEqb (x y : number) : bool :=
  match x, y with
  | S754_zero s, S754_zero s' => Bool.eqb s s'
  | S754_infinity s, S754_infinity s' => Bool.eqb s s'
  | S754_nan, S754_nan => true
  | S754_finite s m e, S754_finite s' m' e' => Bool.eqb s s' && Pos.eqb m m' && Z.eqb e e'
  | _, _ => false
  end.

End Binary64.

Module Channel.
Import Binary64.

(** What the round trip through [rgb()] needs of one 8-bit channel [n]:
    [parseHexToRgb] divides it by 255 and [hexToRgb] multiplies it back and
    rounds, which gives [n] again; its decimal numeral is a string of
    digits, and [Number] reads [n] back from it. *)
Definition channelOk (n : Z) : bool :=
  numberEqb (Math_round (mul (div (ofZ n) (ofZ 255)) (ofZ 255))) (ofZ n)
  && numberEqb (StringToNumber (digits 10 n)) (ofZ n)
  && digitString (digits 10 n).

(** The value of a string of hex digits after [acc]. *)
Fixpoint horner (acc : Z) (s : string) : Z :=
  match s with
  | EmptyString => acc
  | String c s' =>
      horner (16 * acc + match hexDigitValue c with Some d => d | None => 0 end) s'
  end.

End Channel.

(** A runtime whose implementation-approximated functions all give NaN,
    to run the code on the paths that call none of them. *)
Definition nanRuntime : Runtime :=
  {| Math_cos := fun _ => NaN;
     Math_sin := fun _ => NaN;
     Math_atan2 := fun _ _ => NaN;
     Math_pow := fun _ _ => NaN;
     Math_cbrt := fun _ => NaN;
     Math_sqrt := fun _ => NaN;
     Number_toString := fun _ _ => "NaN" |}.

(** * Properties *)

(** ** Exact integer arithmetic on Numbers *)

Module Binary64Facts.
Import Binary64.

Lemma scale_Z q z : 0 <= z -> Zpos (scale q z) = Zpos q * 2 ^ z.
Proof.
  destruct z as [|j|j]; simpl scale; intros Hz; try lia.
  change (Pos.iter xO q j) with (shift_pos j q).
  rewrite shift_pos_correct, Z.pow_pos_fold. lia.
Qed.

Lemma digits2_iter q j : digits2_pos (Pos.iter xO q j) = (digits2_pos q + j)%positive.
Proof.
  induction j using Pos.peano_ind.
  - simpl. lia.
  - rewrite Pos.iter_succ. simpl. rewrite IHj. lia.
Qed.

Lemma digits2_scale q z : 0 <= z -> Zpos (digits2_pos (scale q z)) = Zpos (digits2_pos q) + z.
Proof.
  destruct z as [|j|j]; simpl scale; intros Hz; try lia.
  rewrite digits2_iter. lia.
Qed.

Lemma iter_shr_1 j : forall q,
  iter_pos shr_1 j {| shr_m := Zpos (Pos.iter xO q j); shr_r := false; shr_s := false |}
  = {| shr_m := Zpos q; shr_r := false; shr_s := false |}.
Proof.
  induction j as [j IH|j IH|]; intros q; simpl.
  - rewrite IH, IH. reflexivity.
  - rewrite IH, IH. reflexivity.
  - reflexivity.
Qed.

Lemma scale_scale q a b : 0 <= a -> 0 <= b -> scale (scale q a) b = scale q (a + b).
Proof.
  intros Ha Hb. apply Pos2Z.inj. rewrite !scale_Z by lia. rewrite Z.pow_add_r by lia. lia.
Qed.

Ltac rounding :=
  cbn [SpecFloat.shr shr_m shr_r shr_s shr_record_of_loc loc_of_shr_record round_nearest_even
       Zdigits2 fst snd].

(** A mantissa of 53 bits with an exponent in range is left as it is. *)
Lemma binary_round_aux_canonical s m e :
  Zpos (digits2_pos m) = 53 -> -1074 <= e <= 971 ->
  binary_round_aux prec emax s (Zpos m) e loc_Exact = S754_finite s m e.
Proof.
  intros Hd He.
  assert (Hf : fexp prec emax (Zpos (digits2_pos m) + e) - e = 0).
  { unfold fexp, emin, prec, emax. rewrite Hd. lia. }
  unfold binary_round_aux, shr_fexp. rounding. rewrite Hf. rounding. rewrite Hf. rounding.
  unfold prec, emax. destruct (Z.leb_spec e (1024 - 53)); [reflexivity | lia].
Qed.

Lemma binary_round_scaled s q k :
  Zpos (digits2_pos q) <= 53 -> 0 <= k <= 1074 ->
  binary_round prec emax s (scale q k) (- k)
  = S754_finite s (scale q (53 - Zpos (digits2_pos q))) (Zpos (digits2_pos q) - 53).
Proof.
  intros Hd Hk. set (d := Zpos (digits2_pos q)) in *.
  assert (Hd0 : 0 < d) by (unfold d; lia).
  unfold binary_round.
  rewrite digits2_scale by lia. fold d.
  assert (Hf : fexp prec emax (d + k + - k) = d - 53).
  { unfold fexp, emin, prec, emax. lia. }
  rewrite Hf. unfold shl_align.
  destruct (d - 53 - - k) as [|j|j] eqn:Ej.
  - (* already aligned *)
    replace (53 - d) with k by lia. replace (d - 53) with (- k) by lia.
    apply binary_round_aux_canonical; [rewrite digits2_scale by lia; fold d; lia | lia].
  - (* too many bits: the low ones are zero and are shifted out *)
    assert (Hs : scale q k = Pos.iter xO (scale q (53 - d)) j).
    { change (Pos.iter xO (scale q (53 - d)) j) with (scale (scale q (53 - d)) (Zpos j)).
      rewrite scale_scale by lia. f_equal. lia. }
    unfold binary_round_aux, shr_fexp. rounding.
    rewrite digits2_scale by lia. fold d.
    rewrite Hf. replace (d - 53 - - k) with (Zpos j) by lia.
    rounding. rewrite Hs, !iter_shr_1. rounding.
    replace (- k + Zpos j) with (d - 53) by lia.
    assert (Hf2 : fexp prec emax (Zpos (digits2_pos (scale q (53 - d))) + (d - 53)) - (d - 53) = 0).
    { rewrite digits2_scale by lia. fold d. unfold fexp, emin, prec, emax. lia. }
    rewrite Hf2. rounding.
    unfold prec, emax. destruct (Z.leb_spec (d - 53) (1024 - 53)); [reflexivity | lia].
  - (* too few bits: the mantissa is shifted left *)
    change (Pos.iter xO (scale q k) j) with (scale (scale q k) (Zpos j)).
    rewrite scale_scale by lia. replace (k + Zpos j) with (53 - d) by lia.
    apply binary_round_aux_canonical; [rewrite digits2_scale by lia; fold d; lia | lia].
Qed.

Lemma digits2_bound c n : 0 <= n -> Zpos c < 2 ^ n -> Zpos (digits2_pos c) <= n.
Proof.
  intros Hn Hc.
  assert (Hs : forall p, digits2_pos p = Pos.size p)
    by (induction p as [p IH|p IH|]; simpl; rewrite ?IH; reflexivity).
  rewrite Hs. pose proof (Pos.size_le c) as Hle.
  apply Pos2Z.pos_le_pos in Hle. rewrite Pos2Z.inj_pow in Hle.
  destruct (Z.le_gt_cases (Zpos (Pos.size c)) n) as [|Hgt]; [assumption|].
  assert (2 ^ (n + 1) <= 2 ^ Zpos (Pos.size c)) by (apply Z.pow_le_mono_r; lia).
  rewrite Z.pow_add_r in H by lia. lia.
Qed.

Lemma ofZ_pos c : Zpos c < 2 ^ 53 -> ofZ (Zpos c) = canonical false c.
Proof.
  intros Hc. apply digits2_bound in Hc; [|lia].
  unfold ofZ, binary_normalize.
  exact (binary_round_scaled false c 0 Hc ltac:(lia)).
Qed.

Lemma truncate_canonical s c :
  Zpos (digits2_pos c) <= 53 -> truncate (canonical s c) = cond_Zopp s (Zpos c).
Proof.
  intros Hd. unfold truncate, canonical. f_equal.
  rewrite scale_Z by lia.
  destruct (Z.leb_spec 0 (Zpos (digits2_pos c) - 53)).
  - replace (53 - Zpos (digits2_pos c)) with 0 by lia.
    replace (Zpos (digits2_pos c) - 53) with 0 by lia. simpl. lia.
  - replace (- (Zpos (digits2_pos c) - 53)) with (53 - Zpos (digits2_pos c)) by lia.
    apply Z.div_mul. apply Z.pow_nonzero; lia.
Qed.

Lemma toInteger_canonical s c :
  Zpos (digits2_pos c) <= 53 -> toInteger (canonical s c) = Some (cond_Zopp s (Zpos c)).
Proof.
  intros Hd. unfold toInteger, canonical.
  rewrite scale_Z by lia.
  destruct (Z.leb_spec 0 (Zpos (digits2_pos c) - 53)).
  - replace (53 - Zpos (digits2_pos c)) with 0 by lia.
    replace (Zpos (digits2_pos c) - 53) with 0 by lia. simpl. do 2 f_equal. lia.
  - replace (- (Zpos (digits2_pos c) - 53)) with (53 - Zpos (digits2_pos c)) by lia.
    rewrite Z.mod_mul by (apply Z.pow_nonzero; lia). rewrite Z.eqb_refl.
    rewrite Z.div_mul by (apply Z.pow_nonzero; lia). reflexivity.
Qed.

Lemma shl_align_scale m e e' : e' <= e -> fst (shl_align m e e') = scale m (e - e').
Proof.
  intros He. unfold shl_align.
  destruct (e' - e) as [|j|j] eqn:Ej; try lia.
  - replace (e - e') with 0 by lia. reflexivity.
  - replace (e - e') with (Zpos j) by lia. reflexivity.
Qed.

Lemma add_canonical a b :
  Zpos (digits2_pos a) <= 53 -> Zpos (digits2_pos b) <= 53 ->
  Zpos (digits2_pos (a + b)) <= 53 ->
  add (canonical false a) (canonical false b) = canonical false (a + b).
Proof.
  intros Ha Hb Hab. unfold add, canonical, SFadd.
  set (da := Zpos (digits2_pos a)) in *. set (db := Zpos (digits2_pos b)) in *.
  set (ez := Z.min (da - 53) (db - 53)).
  rewrite !shl_align_scale by lia. rewrite !scale_scale by lia.
  cbn [cond_Zopp Z.add binary_normalize].
  replace (53 - da + (da - 53 - ez)) with (- ez) by lia.
  replace (53 - db + (db - 53 - ez)) with (- ez) by lia.
  replace (scale a (- ez) + scale b (- ez))%positive with (scale (a + b) (- ez)).
  - replace ez with (- - ez) at 2 by lia.
    apply binary_round_scaled; [assumption | lia].
  - apply Pos2Z.inj. rewrite Pos2Z.inj_add, !scale_Z by lia. lia.
Qed.

(** The Numbers of integers below 2^53 add exactly. *)
Lemma add_ofZ a b : 0 <= a -> 0 <= b -> a + b < 2 ^ 53 -> add (ofZ a) (ofZ b) = ofZ (a + b).
Proof.
  intros Ha Hb Hab.
  destruct a as [|a|a]; [| |lia]; destruct b as [|b|b]; try lia.
  - reflexivity.
  - change (0 + Zpos b) with (Zpos b). rewrite ofZ_pos by lia. reflexivity.
  - rewrite Z.add_0_r, ofZ_pos by lia. reflexivity.
  - change (Zpos a + Zpos b) with (Zpos (a + b)) in *.
    rewrite !ofZ_pos by lia.
    apply add_canonical; apply digits2_bound; lia.
Qed.

Lemma truncate_ofZ z : 0 <= z < 2 ^ 53 -> truncate (ofZ z) = z.
Proof.
  intros Hz. destruct z as [|c|c]; [reflexivity| |lia].
  rewrite ofZ_pos by lia. apply truncate_canonical. apply digits2_bound; lia.
Qed.

Lemma toInteger_ofZ z : 0 <= z < 2 ^ 53 -> toInteger (ofZ z) = Some z.
Proof.
  intros Hz. destruct z as [|c|c]; [reflexivity| |lia].
  rewrite ofZ_pos by lia. apply toInteger_canonical. apply digits2_bound; lia.
Qed.

Lemma ToInt32_ofZ z : 0 <= z < 2 ^ 31 -> ToInt32 (ofZ z) = z.
Proof.
  intros Hz. unfold ToInt32. rewrite truncate_ofZ by lia.
  unfold wrap32. rewrite Z.mod_small by lia.
  destruct (Z.leb_spec (2 ^ 31) z); lia.
Qed.

Lemma shl_ofZ z k :
  0 <= z -> 0 <= k -> z * 2 ^ k < 2 ^ 31 -> shl (ofZ z) k = ofZ (z * 2 ^ k).
Proof.
  intros Hz Hk Hlt. unfold shl.
  assert (z < 2 ^ 31).
  { assert (0 < 2 ^ k) by (apply Z.pow_pos_nonneg; lia). nia. }
  rewrite ToInt32_ofZ by lia. rewrite Z.shiftl_mul_pow2 by lia.
  unfold wrap32. rewrite Z.mod_small by nia.
  destruct (Z.leb_spec (2 ^ 31) (z * 2 ^ k)); [lia | reflexivity].
Qed.

Lemma channel_of_ofZ v k :
  0 <= v < 2 ^ 31 -> 0 <= k ->
  band (shr (ofZ v) k) (ofZ 255) = ofZ (Z.land (Z.shiftr v k) 255).
Proof.
  intros Hv Hk. unfold band, shr. rewrite (ToInt32_ofZ v) by lia.
  assert (0 <= Z.shiftr v k <= v).
  { rewrite Z.shiftr_div_pow2 by lia.
    assert (0 < 2 ^ k) by (apply Z.pow_pos_nonneg; lia).
    split; [apply Z.div_pos; lia | apply Z.div_le_upper_bound; nia]. }
  rewrite ToInt32_ofZ by lia. reflexivity.
Qed.

Lemma band_ofZ v : 0 <= v < 2 ^ 31 -> band (ofZ v) (ofZ 255) = ofZ (Z.land v 255).
Proof. intros Hv. unfold band. rewrite ToInt32_ofZ by lia. reflexivity. Qed.

Lemma numberEqb_eq x y : numberEqb x y = true -> x = y.
Proof.
  destruct x as [s|s| |s m e], y as [s'|s'| |s' m' e']; simpl; try discriminate;
    try reflexivity.
  - intros H. apply Bool.eqb_prop in H. congruence.
  - intros H. apply Bool.eqb_prop in H. congruence.
  - intros H. apply andb_prop in H as [H He]. apply andb_prop in H as [Hs Hm].
    apply Bool.eqb_prop in Hs. apply Pos.eqb_eq in Hm. apply Z.eqb_eq in He. congruence.
Qed.

End Binary64Facts.

(** ** Strings: digits, numerals and white space *)

Module TextFacts.
Import Binary64 Binary64Facts Channel Spec.

(** A property checked on every integer below [n] holds of each of them. *)
Lemma forall_below (n : nat) (f : Z -> bool) :
  forallb f (map Z.of_nat (seq 0 n)) = true ->
  forall z, 0 <= z < Z.of_nat n -> f z = true.
Proof.
  intros H z Hz. rewrite forallb_forall in H. apply H.
  apply in_map_iff. exists (Z.to_nat z). split; [lia|].
  apply in_seq. lia.
Qed.

Lemma channels_ok : forall n, 0 <= n < 256 -> channelOk n = true.
Proof. apply (forall_below 256). vm_compute. reflexivity. Qed.

Lemma lowerHex_value c :
  isLowerHexDigit c = true ->
  exists d, hexDigitValue c = Some d /\ 0 <= d < 16 /\ digitChar d = c.
Proof.
  destruct c as [[] [] [] [] [] [] [] []]; intros H; try discriminate H;
    eexists; (split; [reflexivity | split; [vm_compute; easy | reflexivity]]).
Qed.

Lemma hexPrefix_lowerHex s : forall acc,
  all isLowerHexDigit s = true ->
  hexPrefix (Some acc) s = Some (horner acc s).
Proof.
  induction s as [|c s IH]; intros acc H; simpl in *; [reflexivity|].
  apply andb_prop in H as [Hc Hs].
  destruct (lowerHex_value c Hc) as [d [Hd _]]. rewrite Hd. apply IH, Hs.
Qed.

Lemma parseInt16_lowerHex s :
  s <> EmptyString -> all isLowerHexDigit s = true -> parseInt16 s = ofZ (horner 0 s).
Proof.
  intros Hne H.
  assert (Hv : forall v, (if v =? 0 then S754_zero false else ofZ v) = ofZ v).
  { intros v. destruct (Z.eqb_spec v 0) as [->|]; reflexivity. }
  destruct s as [|c s]; [congruence|]. clear Hne.
  simpl in H. apply andb_prop in H as [Hc Hs].
  assert (Hp : forall t, all isLowerHexDigit t = true ->
                         match hexPrefix None (String c t) with
                         | Some v => if v =? 0 then S754_zero false else ofZ (cond_Zopp false v)
                         | None => NaN
                         end = ofZ (horner 0 (String c t))).
  { intros t Ht. simpl. destruct (lowerHex_value c Hc) as [d [Hd _]]. rewrite Hd.
    rewrite hexPrefix_lowerHex by assumption. apply Hv. }
  destruct c as [[] [] [] [] [] [] [] []]; try discriminate Hc;
    try (apply Hp; assumption).
  (* the digit 0: no [x] follows it *)
  destruct s as [|c2 s]; [reflexivity|].
  pose proof Hs as Hs'. simpl in Hs'. apply andb_prop in Hs' as [Hc2 _].
  destruct c2 as [[] [] [] [] [] [] [] []]; try discriminate Hc2;
    apply (Hp _ Hs).
Qed.

Lemma length_append a b : String.length (a ++ b) = (String.length a + String.length b)%nat.
Proof. induction a as [|c a IH]; simpl; [reflexivity | rewrite IH; reflexivity]. Qed.

Lemma append_assoc a b c : (a ++ b) ++ c = a ++ (b ++ c).
Proof. induction a as [|x a IH]; simpl; [reflexivity | rewrite IH; reflexivity]. Qed.

Lemma trimEnd_append a b :
  b <> EmptyString -> trimEnd b = b -> trimEnd (a ++ b) = a ++ b.
Proof.
  intros Hne Hb. induction a as [|c a IH]; simpl; [assumption|].
  rewrite IH. destruct (a ++ b) eqn:E; [|reflexivity].
  destruct a; simpl in E; congruence.
Qed.

Lemma append_nonempty a b : b <> EmptyString -> a ++ b <> EmptyString.
Proof. destruct a; simpl; [trivial | discriminate]. Qed.

Lemma spanDigits_append d c rest :
  allDigits d = true -> isDigit c = false ->
  spanDigits (d ++ String c rest) = (d, String c rest).
Proof.
  intros Hd Hc. induction d as [|x d IH]; simpl in *.
  - rewrite Hc. reflexivity.
  - apply andb_prop in Hd as [Hx Hd]. rewrite Hx, (IH Hd). reflexivity.
Qed.

Lemma splitDot_whole s i : splitDot s = (i, None) -> s = i.
Proof.
  revert i. induction s as [|c s IH]; intros i H; simpl in H.
  - congruence.
  - destruct (Ascii.eqb c "."); [discriminate|].
    destruct (splitDot s) as [i' [f'|]]; inversion H; subst. f_equal. apply IH. reflexivity.
Qed.

Lemma splitDot_point s i f : splitDot s = (i, Some f) -> s = i ++ String "." f.
Proof.
  revert i. induction s as [|c s IH]; intros i H; simpl in H.
  - discriminate.
  - destruct (Ascii.eqb_spec c ".") as [->|].
    + inversion H; subst. reflexivity.
    + destruct (splitDot s) as [i' [f'|]]; inversion H; subst.
      simpl. f_equal. apply IH. reflexivity.
Qed.

(** A numeral followed by a character that is neither a digit nor a point
    is one match. *)
Lemma numerals_numeral fuel t c rest :
  numeral t = true -> isDigit c = false -> c <> "."%char ->
  numerals (S fuel) (t ++ String c rest) = t :: numerals fuel (String c rest).
Proof.
  intros Ht Hc Hdot. unfold numeral in Ht.
  destruct (splitDot t) as [i [f|]] eqn:E.
  - (* digits, a point, digits *)
    apply splitDot_point in E. subst t.
    apply andb_prop in Ht as [Hi Hf].
    destruct i as [|x i]; [discriminate|]. destruct f as [|y f]; [discriminate|].
    unfold digitString in Hi, Hf. cbn [String.eqb negb andb allDigits] in Hi, Hf.
    apply andb_prop in Hi as [Hx Hi]. apply andb_prop in Hf as [Hy Hf].
    rewrite append_assoc. cbn [append numerals]. rewrite Hx. unfold numeralAt.
    rewrite (spanDigits_append i "." _ Hi eq_refl). rewrite Hy.
    rewrite (spanDigits_append f c rest Hf Hc). reflexivity.
  - (* digits *)
    apply splitDot_whole in E. subst t.
    destruct i as [|x i]; [discriminate|].
    unfold digitString in Ht. cbn [String.eqb negb andb allDigits] in Ht.
    apply andb_prop in Ht as [Hx Hi].
    cbn [append numerals]. rewrite Hx. unfold numeralAt.
    rewrite (spanDigits_append i c rest Hi Hc).
    destruct c as [[] [] [] [] [] [] [] []]; try reflexivity; congruence.
Qed.

Lemma digitString_numeral d : digitString d = true -> numeral d = true.
Proof.
  intros Hd. unfold numeral.
  assert (Hs : forall t, allDigits t = true -> splitDot t = (t, None)).
  { induction t as [|c t IH]; intros Ht; [reflexivity|].
    cbn [allDigits] in Ht. apply andb_prop in Ht as [Hc Ht].
    cbn [splitDot]. rewrite (IH Ht).
    destruct (Ascii.eqb_spec c ".") as [->|]; [discriminate Hc | reflexivity]. }
  unfold digitString in Hd. apply andb_prop in Hd as [Hne Hall].
  rewrite (Hs d Hall). unfold digitString. rewrite Hne, Hall. reflexivity.
Qed.

Lemma numeral_length t : numeral t = true -> (1 <= String.length t)%nat.
Proof.
  unfold numeral. intros Ht. destruct (splitDot t) as [i [f|]] eqn:E.
  - apply splitDot_point in E. subst t. rewrite length_append. simpl. lia.
  - apply splitDot_whole in E. subst t. destruct i; [discriminate | simpl; lia].
Qed.

Lemma numerals_skip f c s :
  isDigit c = false -> numerals (S f) (String c s) = numerals f s.
Proof. intros Hc. simpl. rewrite Hc. reflexivity. Qed.

(** One step of the scan: a character that is no digit is skipped, a
    numeral before a separator is matched. *)
Ltac scan :=
  repeat first
    [ rewrite numerals_skip by reflexivity
    | rewrite numerals_numeral by (assumption || reflexivity || discriminate) ].

(** The length of a text is enough fuel for what its numerals need. *)
Ltac fuel_of_length s H :=
  unfold matchNumerals;
  assert (H : exists k, String.length s = k) by (eexists; reflexivity);
  destruct H as [k H]; rewrite H;
  rewrite !length_append in H; cbn [String.length] in H;
  repeat match goal with
         | Hn : numeral ?t = true |- _ => apply numeral_length in Hn
         end.

Lemma numerals_rgb k dr dg db :
  numeral dr = true -> numeral dg = true -> numeral db = true ->
  numerals (12 + k) ("rgb(" ++ dr ++ ", " ++ dg ++ ", " ++ db ++ ")") = [dr; dg; db].
Proof.
  intros Hr Hg Hb. cbn [Nat.add append]. scan. destruct k; reflexivity.
Qed.

Lemma matchNumerals_rgb dr dg db :
  numeral dr = true -> numeral dg = true -> numeral db = true ->
  matchNumerals ("rgb(" ++ dr ++ ", " ++ dg ++ ", " ++ db ++ ")") = Some [dr; dg; db].
Proof.
  intros Hr Hg Hb.
  pose proof (numerals_rgb (String.length (dr ++ dg ++ db) - 3) dr dg db Hr Hg Hb) as Hn.
  fuel_of_length ("rgb(" ++ dr ++ ", " ++ dg ++ ", " ++ db ++ ")") Hl.
  rewrite !length_append in Hn.
  replace k with (12 + (String.length dr + (String.length dg + String.length db) - 3))%nat
    by lia.
  rewrite Hn. reflexivity.
Qed.





(** A text between a letter and [)] has nothing to trim. *)
Lemma trim_rgb dr dg db :
  trim ("rgb(" ++ dr ++ ", " ++ dg ++ ", " ++ db ++ ")")
  = "rgb(" ++ dr ++ ", " ++ dg ++ ", " ++ db ++ ")".
Proof.
  unfold trim. change (trimStart ("rgb(" ++ ?x)) with ("rgb(" ++ x).
  repeat (apply trimEnd_append; [repeat apply append_nonempty; discriminate|]).
  reflexivity.
Qed.


Lemma digitsAux_step f n acc d q :
  0 <= d < 16 -> 0 < q -> n = 16 * q + d ->
  digitsAux (S f) 16 n acc = digitsAux f 16 q (String (digitChar d) acc).
Proof.
  intros Hd Hq Hn. cbn [digitsAux].
  replace (n mod 16) with d by (Z.div_mod_to_equations; lia).
  replace (n / 16) with q by (Z.div_mod_to_equations; lia).
  destruct (Z.eqb_spec q 0); [lia | reflexivity].
Qed.

Lemma digitsAux_last f n acc :
  0 <= n < 16 -> digitsAux (S f) 16 n acc = String (digitChar n) acc.
Proof.
  intros Hn. cbn [digitsAux]. rewrite Z.mod_small, Z.div_small by lia. reflexivity.
Qed.

(** The seven digits of [2^24 + v] for a 24-bit [v]. *)
Lemma digits16_rgb d1 d2 d3 d4 d5 d6 :
  0 <= d1 < 16 -> 0 <= d2 < 16 -> 0 <= d3 < 16 ->
  0 <= d4 < 16 -> 0 <= d5 < 16 -> 0 <= d6 < 16 ->
  digits 16 (2 ^ 24 + (16 * d1 + d2) * 2 ^ 16 + (16 * d3 + d4) * 2 ^ 8 + (16 * d5 + d6))
  = String "1" (String (digitChar d1) (String (digitChar d2) (String (digitChar d3)
      (String (digitChar d4) (String (digitChar d5) (String (digitChar d6) ""))))))%string.
Proof.
  intros H1 H2 H3 H4 H5 H6. unfold digits.
  set (n := 2 ^ 24 + _ + _ + _).
  assert (Hn : 2 ^ 24 <= n < 2 ^ 25) by (subst n; lia).
  rewrite (Z.log2_unique n 24) by lia.
  change (S (Z.to_nat 24)) with 25%nat.
  rewrite (digitsAux_step _ n _ d6 (2 ^ 20 + (16 * d1 + d2) * 2 ^ 12 + (16 * d3 + d4) * 2 ^ 4 + d5))
    by (subst n; lia).
  rewrite (digitsAux_step _ _ _ d5 (2 ^ 16 + (16 * d1 + d2) * 2 ^ 8 + (16 * d3 + d4))) by lia.
  rewrite (digitsAux_step _ _ _ d4 (2 ^ 12 + (16 * d1 + d2) * 2 ^ 4 + d3)) by lia.
  rewrite (digitsAux_step _ _ _ d3 (2 ^ 8 + (16 * d1 + d2))) by lia.
  rewrite (digitsAux_step _ _ _ d2 (2 ^ 4 + d1)) by lia.
  rewrite (digitsAux_step _ _ _ d1 1) by lia.
  rewrite digitsAux_last by lia. reflexivity.
Qed.

Lemma channels_of_value d1 d2 d3 d4 d5 d6 :
  0 <= d1 < 16 -> 0 <= d2 < 16 -> 0 <= d3 < 16 ->
  0 <= d4 < 16 -> 0 <= d5 < 16 -> 0 <= d6 < 16 ->
  let v := 16 * (16 * (16 * (16 * (16 * (16 * 0 + d1) + d2) + d3) + d4) + d5) + d6 in
  Z.land (Z.shiftr v 16) 255 = 16 * d1 + d2 /\
  Z.land (Z.shiftr v 8) 255 = 16 * d3 + d4 /\
  Z.land v 255 = 16 * d5 + d6.
Proof.
  intros H1 H2 H3 H4 H5 H6 v.
  change 255 with (Z.ones 8). rewrite !Z.land_ones, !Z.shiftr_div_pow2 by lia.
  change (2 ^ 16) with 65536. change (2 ^ 8) with 256.
  subst v. repeat split; Z.div_mod_to_equations; lia.
Qed.

(** Hex digits are not white space: [trim] leaves a hex notation alone. *)
Lemma trimEnd_all (p : ascii -> bool) s :
  (forall c, p c = true -> isWhiteSpace c = false) -> all p s = true -> trimEnd s = s.
Proof.
  intros Hp. induction s as [|c s IH]; intros Hs; [reflexivity|].
  cbn [all] in Hs. apply andb_prop in Hs as [Hc Hs].
  cbn [trimEnd]. rewrite (IH Hs), (Hp c Hc). destruct s; reflexivity.
Qed.

Lemma hexDigit_not_space c : isHexDigit c = true -> isWhiteSpace c = false.
Proof. destruct c as [[] [] [] [] [] [] [] []]; intros H; try discriminate H; reflexivity. Qed.

Lemma trim_hexNotation s : hexNotation s = true -> trim s = s /\ startsWith s "#" = true.
Proof.
  intros H. destruct s as [|c t]; [discriminate|].
  destruct c as [[] [] [] [] [] [] [] []]; try discriminate H.
  cbn [hexNotation] in H. apply andb_prop in H as [_ Hall].
  split; [|destruct t; reflexivity].
  unfold trim. change (trimStart (String "#" t)) with (String "#" t).
  cbn [trimEnd]. rewrite (trimEnd_all isHexDigit t hexDigit_not_space Hall).
  destruct t; reflexivity.
Qed.

End TextFacts.

(** ** The conversion functions *)

Import ColorConversion Spec Binary64 Binary64Facts Channel TextFacts.

Section Conversions.
Context {rt : Runtime}.

(** *** Printing integers *)

Lemma toString16_ofZ z : 0 < z < 2 ^ 53 -> toString 16 (ofZ z) = digits 16 z.
Proof.
  intros Hz. destruct z as [|c|c]; try lia.
  rewrite ofZ_pos by lia. unfold toString. fold (canonical false c).
  rewrite toInteger_canonical by (apply digits2_bound; lia).
  reflexivity.
Qed.

Lemma toString10_ofZ z : 0 <= z < 256 -> toString 10 (ofZ z) = digits 10 z.
Proof.
  intros Hz. destruct z as [|c|c]; try lia; [reflexivity|].
  rewrite ofZ_pos by lia. unfold toString. fold (canonical false c).
  rewrite toInteger_canonical by (apply digits2_bound; lia).
  cbn [cond_Zopp andb Z.eqb Pos.eqb].
  destruct (Z.leb_spec (10 ^ 21) (Z.abs (Zpos c))); [lia | reflexivity].
Qed.

(** *** [toHex]: the dispatch on the prefix *)

Lemma toHex_string (c : ascii) (v : string) :
  toHex (str (String c v))
  = let value := trim (String c v) in
    let string (c : completion string) := let* s := c in Return (str s) in
    if startsWith value "#" then Return (str value)
    else if startsWith value "rgb" then string (rgbToHex value)
    else if startsWith value "hsl" then string (hslToHex value)
    else if startsWith value "hwb" then string (hwbToHex value)
    else if startsWith value "lch" then string (lchToHex value)
    else if startsWith value "oklch" then string (oklchToHex value)
    else Return (namedColorToHex value).
Proof. reflexivity. Qed.

(** An input whose trimmed form starts with [#] is returned trimmed, and
    otherwise as it is. *)
Lemma toHex_hex_passthrough (value : string) :
  startsWith (trim value) "#" = true -> toHex (str value) = Return (str (trim value)).
Proof.
  intros H. destruct value as [|c v]; [discriminate|].
  rewrite toHex_string. cbv zeta. rewrite H. reflexivity.
Qed.

(** C1 (as amended): for every valid hex-notation input string (3- or
    6-digit, any letter case, with leading [#]), [toHex] returns that string
    unchanged: it neither lowercases it nor expands the 3-digit shorthand. *)
Theorem toHex_hexNotation (value : string) :
  hexNotation value = true -> toHex (str value) = Return (str value).
Proof.
  intros H. destruct (trim_hexNotation value H) as [Ht Hs].
  rewrite toHex_hex_passthrough; rewrite Ht; [reflexivity | assumption].
Qed.

Lemma toHex_dispatch_oklch (value : string) :
  startsWith (trim value) "oklch" = true ->
  startsWith (trim value) "lch" = false /\
  toHex (str value) = (let* s := oklchToHex (trim value) in Return (str s)).
Proof.
  intros H. destruct value as [|c v]; [discriminate|].
  rewrite toHex_string. cbv zeta.
  destruct (trim (String c v)) as [|x t]; [discriminate|].
  assert (Hx : x = "o"%char).
  { unfold startsWith in H. cbn [prefix] in H.
    destruct (ascii_dec "o" x); [congruence | discriminate]. }
  subst x. rewrite H. split; reflexivity.
Qed.

(** C9: for every input string whose trimmed form begins with "oklch", the
    [lch] test of [toHex] fails and [toHex] returns what [oklchToHex] gives
    for the trimmed string. *)
Theorem toHex_oklch_dispatch (value : string) :
  startsWith (trim value) "oklch" = true ->
  startsWith (trim value) "lch" = false /\
  toHex (str value) = (let* s := oklchToHex (trim value) in Return (str s)).
Proof. exact (toHex_dispatch_oklch value). Qed.



(** A string with none of the prefixes, whose lowercase form is no key of
    [COLOR_NAMES] (own or inherited), is returned trimmed: [toHex] has no
    failure result for it. *)
Lemma toHex_unlisted_name (value : string) :
  value <> EmptyString ->
  forallb (fun p => negb (startsWith (trim value) p)) ["#"; "rgb"; "hsl"; "hwb"; "lch"; "oklch"]
    = true ->
  get COLOR_NAMES (toLowerCase (trim value)) = undefined ->
  toHex (str value) = Return (str (trim value)).
Proof.
  intros Hne Hp Hget. destruct value as [|c v]; [congruence|].
  rewrite toHex_string. cbv zeta. cbn [forallb] in Hp.
  repeat match type of Hp with
         | (negb _ && _)%bool = true =>
             let Hq := fresh "Hq" in
             apply andb_prop in Hp as [Hq Hp]; apply negb_true_iff in Hq; rewrite Hq
         end.
  unfold namedColorToHex. rewrite Hget. reflexivity.
Qed.

(** C4 (the code at the failing input): [toHex("not-a-color")] returns the
    input string itself. *)
Theorem toHex_unknown_name_returns_input :
  toHex (str "not-a-color") = Return (str "not-a-color").
Proof. vm_compute. reflexivity. Qed.

(** C5 (the code at the failing input): the lookup finds "red" in either
    case, but the table has no key "rebeccapurple", and
    [toHex("REBECCAPURPLE")] returns the input string. *)
Theorem toHex_named_colors :
  toHex (str "red") = Return (str "#ff0000") /\
  toHex (str "RED") = Return (str "#ff0000") /\
  getOwn COLOR_NAMES "rebeccapurple" = None /\
  toHex (str "REBECCAPURPLE") = Return (str "REBECCAPURPLE").
Proof. repeat split; vm_compute; reflexivity. Qed.

(** C6 (the code at the failing inputs): [toDoubleHex] does not saturate: a
    channel of 2 is printed with three digits and one of -0.5 with a sign,
    and [toHex("hsl(0, 100%, 150%)")] is not [#] and six hex digits. The
    callers [lchToHex] and [oklchToHex] saturate with [clamp] first. *)
Theorem toDoubleHex_not_saturating :
  toDoubleHex (ofZ 2) = "1fe" /\
  toDoubleHex (neg (lit 5 1)) = "-7f" /\
  toHex (str "hsl(0, 100%, 150%)") = Return (str "#ff1fe1fe") /\
  toDoubleHex (clamp (ofZ 2)) = "ff" /\
  toDoubleHex (clamp (neg (lit 5 1))) = "00".
Proof. repeat split; vm_compute; reflexivity. Qed.

(** *** [hexTo] and the round trips *)

Lemma hexTo_rgb hex st :
  hex <> EmptyString ->
  hexTo (str hex) (str "rgb") st = (let* s := hexToRgb (str hex) in Return (str s), st).
Proof. intros Hne. destruct hex; [congruence | reflexivity]. Qed.

Lemma toHex_rgb_text dr dg db :
  let text := "rgb(" ++ dr ++ ", " ++ dg ++ ", " ++ db ++ ")" in
  toHex (str text) = (let* s := rgbToHex text in Return (str s)).
Proof.
  intros text. unfold toHex.
  change (negb (truthy (str text))) with false. cbn [asString bind].
  unfold text. rewrite trim_rgb. reflexivity.
Qed.

Lemma rgbToHex_text x y z :
  0 <= x < 256 -> 0 <= y < 256 -> 0 <= z < 256 ->
  rgbToHex ("rgb(" ++ digits 10 x ++ ", " ++ digits 10 y ++ ", " ++ digits 10 z ++ ")")
  = Return ("#" ++ slice1 (digits 16 (2 ^ 24 + x * 2 ^ 16 + y * 2 ^ 8 + z))).
Proof.
  intros Hx Hy Hz.
  pose proof (channels_ok x Hx) as Cx. pose proof (channels_ok y Hy) as Cy.
  pose proof (channels_ok z Hz) as Cz. unfold channelOk in Cx, Cy, Cz.
  apply andb_prop in Cx as [Cx Dx]. apply andb_prop in Cx as [_ Nx].
  apply andb_prop in Cy as [Cy Dy]. apply andb_prop in Cy as [_ Ny].
  apply andb_prop in Cz as [Cz Dz]. apply andb_prop in Cz as [_ Nz].
  apply numberEqb_eq in Nx, Ny, Nz.
  unfold rgbToHex, numbers.
  rewrite matchNumerals_rgb by (apply digitString_numeral; assumption).
  cbn [bind map element nth]. rewrite Nx, Ny, Nz.
  rewrite (shl_ofZ 1 24), (shl_ofZ x 16), (shl_ofZ y 8) by lia.
  rewrite !add_ofZ by lia. rewrite toString16_ofZ by lia.
  do 3 f_equal; lia.
Qed.

Lemma hexToRgb_lowerHex6 c1 c2 c3 c4 c5 c6 d1 d2 d3 d4 d5 d6 :
  hexDigitValue c1 = Some d1 -> hexDigitValue c2 = Some d2 -> hexDigitValue c3 = Some d3 ->
  hexDigitValue c4 = Some d4 -> hexDigitValue c5 = Some d5 -> hexDigitValue c6 = Some d6 ->
  0 <= d1 < 16 -> 0 <= d2 < 16 -> 0 <= d3 < 16 ->
  0 <= d4 < 16 -> 0 <= d5 < 16 -> 0 <= d6 < 16 ->
  all isLowerHexDigit (String c1 (String c2 (String c3 (String c4 (String c5 (String c6 ""))))))
    = true ->
  hexToRgb (str (String "#" (String c1 (String c2 (String c3 (String c4 (String c5
                   (String c6 ""))))))))
  = Return ("rgb(" ++ digits 10 (16 * d1 + d2) ++ ", " ++ digits 10 (16 * d3 + d4) ++ ", "
                   ++ digits 10 (16 * d5 + d6) ++ ")").
Proof.
  intros V1 V2 V3 V4 V5 V6 H1 H2 H3 H4 H5 H6 Hall.
  set (t := String c1 (String c2 (String c3 (String c4 (String c5 (String c6 "")))))) in *.
  unfold hexToRgb. cbn [asString bind]. unfold parseHexToRgb.
  change (startsWith (String "#" t) "#") with true. cbn [slice1].
  change (String.length t =? 3)%nat with false. cbv iota.
  rewrite parseInt16_lowerHex by (assumption || discriminate).
  assert (Hv : horner 0 t
               = 16 * (16 * (16 * (16 * (16 * (16 * 0 + d1) + d2) + d3) + d4) + d5) + d6).
  { unfold t. cbn [horner]. rewrite V1, V2, V3, V4, V5, V6. reflexivity. }
  rewrite Hv.
  destruct (channels_of_value d1 d2 d3 d4 d5 d6 H1 H2 H3 H4 H5 H6) as [Er [Eg Eb]].
  rewrite !channel_of_ofZ, band_ofZ by lia. rewrite Er, Eg, Eb.
  cbn [r g b].
  assert (Hch : forall n, 0 <= n < 256 ->
            toString 10 (Math_round (mul (div (ofZ n) (ofZ 255)) (ofZ 255))) = digits 10 n).
  { intros n Hn. pose proof (channels_ok n Hn) as C. unfold channelOk in C.
    apply andb_prop in C as [C _]. apply andb_prop in C as [C _].
    apply numberEqb_eq in C. rewrite C. apply toString10_ofZ, Hn. }
  rewrite !Hch by lia. reflexivity.
Qed.

(** C2: for every valid 6-digit lowercase hex string [H],
    [toHex(hexTo(H, "rgb"))] returns [H]. *)
Theorem hex_rgb_roundtrip (H : string) (st : store) :
  lowerHex6 H = true -> roundTrip H "rgb" st = Return (str H).
Proof.
  intros Hhex.
  destruct H as [|c0 t]; [discriminate|].
  destruct c0 as [[] [] [] [] [] [] [] []]; try discriminate Hhex.
  cbn [lowerHex6] in Hhex. apply andb_prop in Hhex as [Hlen Hall].
  destruct t as [|c1 [|c2 [|c3 [|c4 [|c5 [|c6 [|c7 t]]]]]]]; try discriminate Hlen.
  pose proof Hall as Hall'. cbn [all] in Hall'.
  repeat match type of Hall' with
         | (_ && _)%bool = true => apply andb_prop in Hall' as [?Hc Hall']
         end.
  destruct (lowerHex_value c1 Hc) as [d1 [V1 [R1 E1]]].
  destruct (lowerHex_value c2 Hc0) as [d2 [V2 [R2 E2]]].
  destruct (lowerHex_value c3 Hc1) as [d3 [V3 [R3 E3]]].
  destruct (lowerHex_value c4 Hc2) as [d4 [V4 [R4 E4]]].
  destruct (lowerHex_value c5 Hc3) as [d5 [V5 [R5 E5]]].
  destruct (lowerHex_value c6 Hc4) as [d6 [V6 [R6 E6]]].
  unfold roundTrip. rewrite hexTo_rgb by discriminate. cbn [fst].
  rewrite (hexToRgb_lowerHex6 c1 c2 c3 c4 c5 c6 d1 d2 d3 d4 d5 d6) by assumption.
  cbn [bind]. rewrite toHex_rgb_text, rgbToHex_text by lia. cbn [bind].
  rewrite digits16_rgb by assumption. cbn [slice1 append].
  rewrite E1, E2, E3, E4, E5, E6. reflexivity.
Qed.



End Conversions.

(** C10: on [undefined], [null] and the empty string, [hexToName] returns
    "black", and leaves [HEX_TO_NAMES] as it was. *)
Theorem hexToName_absent (st : store) :
  hexToName undefined st = (Return (str "black"), st) /\
  hexToName null st = (Return (str "black"), st) /\
  hexToName (str "") st = (Return (str "black"), st).
Proof. repeat split. Qed.

(** ** Concrete instances *)

(** C1 as stated fails: "#ABC" is a valid hex notation whose canonical form
    is "#aabbcc", and [toHex] returns "#ABC". *)
Lemma toHex_hex_not_canonical :
  ~ (forall (rt : Runtime) (value : string),
       hexNotation value = true -> toHex (str value) = Return (str (canonicalHex value))).
Proof.
  intros Hc. specialize (Hc nanRuntime "#ABC" eq_refl). vm_compute in Hc. discriminate Hc.
Qed.

Lemma toHex_hexNotation_witness :
  hexNotation "#ABC" = true /\ toHex (rt := nanRuntime) (str "#ABC") = Return (str "#ABC").
Proof.
  split; [reflexivity | exact (toHex_hexNotation (rt := nanRuntime) "#ABC" eq_refl)].
Defined.

Lemma hex_rgb_roundtrip_witness :
  lowerHex6 "#1a2b3c" = true /\
  roundTrip (rt := nanRuntime) "#1a2b3c" "rgb" None = Return (str "#1a2b3c").
Proof.
  split; [reflexivity | exact (hex_rgb_roundtrip (rt := nanRuntime) "#1a2b3c" None eq_refl)].
Defined.




Lemma toHex_oklch_dispatch_witness :
  startsWith (trim " oklch(0.6 0.15 180)") "oklch" = true /\
  startsWith (trim " oklch(0.6 0.15 180)") "lch" = false /\
  toHex (rt := nanRuntime) (str " oklch(0.6 0.15 180)")
  = (let* s := oklchToHex (rt := nanRuntime) (trim " oklch(0.6 0.15 180)") in Return (str s)).
Proof.
  split; [reflexivity |].
  exact (toHex_oklch_dispatch (rt := nanRuntime) " oklch(0.6 0.15 180)" eq_refl).
Defined.

